(** * YouTube_downloader: the command-line driver of [main.py]

    [main.py] parses three command-line arguments, assembles an options
    dictionary and hands the work to yt-dlp's [YoutubeDL] class.  This file
    embeds the two functions of the script, [download_audio] and [main],
    together with the Python statements they are made of ([with],
    [try]/[except Exception], [print], [sys.exit]), and proves what the
    specification says about them.

    The downloader is an external collaborator: it appears here as an
    interface ([YoutubeDL_API]) whose operations may answer anything, and
    every theorem holds for every implementation of it.

    The script is embedded twice.  In [Section Script] standard output
    takes whatever is printed to it, which is enough for what the script
    hands to the downloader and for what happens once [download] has been
    called.  In [Module Console] standard output is an interface of its own
    ([Stdout_API]) whose writes may raise, as Python's [print] does on a
    text the stream cannot encode or on a stream that cannot be written;
    the exit status of the process and the way the url reaches [download]
    are settled there.  [console_accepting_main] shows the first embedding
    to be the second on a standard output that accepts everything. *)

From Stdlib Require Import ZArith String List Lia.
From stdpp Require Import gmap strings list fin_maps.

Set Warnings "-register-all".

Local Open Scope string_scope.
Local Open Scope list_scope.
Local Open Scope Z_scope.

(** ** Python values *)

(** The values the script handles: [None], strings, booleans, lists and
    string-keyed dictionaries. *)
Inductive pyval : Type :=
| PNone
| PStr (s : string)
| PBool (b : bool)
| PList (l : list pyval)
| PDict (d : gmap string pyval).

(** Truth value of a [str]: the empty string is false, any other true. *)
Definition str_truthy (s : string) : bool :=
  match s with
  | EmptyString => false
  | String _ _ => true
  end.

(** Truth value of an [Optional[str]]: [None] is false. *)
Definition truthy (v : option string) : bool :=
  match v with
  | None => false
  | Some s => str_truthy s
  end.

(** An [Optional[str]] as a Python value. *)
Definition to_py (v : option string) : pyval :=
  match v with
  | None => PNone
  | Some s => PStr s
  end.

(** ** Exceptions and outcomes *)

(** The two exception classes the script deals with.  [Exception msg] is
    any instance of the class [Exception], [msg] being its [str()];
    [SystemExit] is what [sys.exit] raises and is not an [Exception]. *)
Inductive exn : Type :=
| Exception (msg : string)
| SystemExit (code : Z).

Definition str (e : exn) : string :=
  match e with
  | Exception msg => msg
  | SystemExit code => EmptyString
  end.

Definition isinstance_Exception (e : exn) : bool :=
  match e with
  | Exception _ => true
  | SystemExit _ => false
  end.

Inductive outcome (A : Type) : Type :=
| Normal (a : A)
| Raise (e : exn).
Arguments Normal {A} a.
Arguments Raise {A} e.

(** ** The downloader collaborator *)

(** What a call into yt-dlp answers: a value, or a failure.  yt-dlp reports
    every failure (network, unavailable video, missing ffmpeg, permissions)
    by raising an instance of [Exception]; [msg] is its [str()].  A
    [KeyboardInterrupt] delivered while the call runs is not an answer of
    the collaborator and is not modelled. *)
Inductive reply (A : Type) : Type :=
| Returns (a : A)
| Raises (msg : string).
Arguments Returns {A} a.
Arguments Raises {A} msg.

(** The operations of [yt_dlp.YoutubeDL] that the script uses.  [Ext] is
    everything outside the script the collaborator reads and writes
    (network, file system, ffmpeg); [Ydl] is an instance of the class. *)
Record YoutubeDL_API (Ext : Type) : Type := {
  Ydl : Type;
  (** [YoutubeDL(params)] *)
  ydl_init : gmap string pyval -> Ext -> reply Ydl * Ext;
  (** [mgr.__enter__()], whose result is bound by [as] *)
  ydl_enter : Ydl -> Ext -> reply Ydl * Ext;
  (** [ydl.download(url_list)]; the returned code is not used *)
  ydl_download : Ydl -> list string -> Ext -> reply Z * Ext;
  (** [mgr.__exit__(...)], with the exception in flight if any; the result
      is the truth value of what it returns (true: swallow the exception) *)
  ydl_exit : Ydl -> option exn -> Ext -> reply bool * Ext;
}.
Arguments Ydl {Ext} _.
Arguments ydl_init {Ext} _ _ _.
Arguments ydl_enter {Ext} _ _ _.
Arguments ydl_download {Ext} _ _ _ _.
Arguments ydl_exit {Ext} _ _ _ _.

(** ** Observable behaviour *)

Inductive stream : Type := Stdout | Stderr.

(** What the script does that can be seen from outside, in order: text
    written to a stream, and calls into the collaborator. *)
Inductive event : Type :=
| EvWrite (file : stream) (text : string)
| EvInit (params : gmap string pyval)
| EvEnter
| EvDownload (url_list : list string)
| EvExit (exc : option exn).

Record world (Ext : Type) : Type := {
  trace : list event;
  ext : Ext;
}.
Arguments trace {Ext} _.
Arguments ext {Ext} _.

(** The options of every [YoutubeDL(...)] construction in a trace. *)
Fixpoint passed_options (t : list event) : list (gmap string pyval) :=
  match t with
  | [] => []
  | EvInit params :: t' => params :: passed_options t'
  | _ :: t' => passed_options t'
  end.

(** The calls into the collaborator in a trace, writes left out. *)
Fixpoint calls (t : list event) : list event :=
  match t with
  | [] => []
  | EvWrite _ _ :: t' => calls t'
  | e :: t' => e :: calls t'
  end.

(** The argument of every [download(...)] call in a trace. *)
Fixpoint downloads (t : list event) : list (list string) :=
  match t with
  | [] => []
  | EvDownload url_list :: t' => url_list :: downloads t'
  | _ :: t' => downloads t'
  end.

(** The texts written to one stream in a trace, in order. *)
Fixpoint written (f : stream) (t : list event) : list string :=
  match t with
  | [] => []
  | EvWrite Stdout text :: t' =>
      match f with
      | Stdout => text :: written f t'
      | Stderr => written f t'
      end
  | EvWrite Stderr text :: t' =>
      match f with
      | Stdout => written f t'
      | Stderr => text :: written f t'
      end
  | _ :: t' => written f t'
  end.

(** ** Statements of the script as state transformers *)

(** A statement runs in a world and ends normally or by raising. *)
Definition M (Ext A : Type) : Type := world Ext -> outcome A * world Ext.

Definition ret {Ext A} (a : A) : M Ext A := fun w => (Normal a, w).

Definition raise {Ext A} (e : exn) : M Ext A := fun w => (Raise e, w).

Definition bind {Ext A B} (m : M Ext A) (k : A -> M Ext B) : M Ext B :=
  fun w =>
    match m w with
    | (Normal a, w') => k a w'
    | (Raise e, w') => (Raise e, w')
    end.

#[global] Instance M_ret {Ext} : MRet (M Ext) := fun A a => ret a.
#[global] Instance M_bind {Ext} : MBind (M Ext) := fun A B k m => bind m k.

Definition log {Ext} (e : event) : M Ext unit :=
  fun w => (Normal tt, {| trace := trace w ++ [e]; ext := ext w |}).

(** A call into the collaborator: recorded, then answered by it. *)
Definition call {Ext A} (e : event) (op : Ext -> reply A * Ext) : M Ext A :=
  fun w =>
    let t := trace w ++ [e] in
    match op (ext w) with
    | (Returns a, x) => (Normal a, {| trace := t; ext := x |})
    | (Raises msg, x) => (Raise (Exception msg), {| trace := t; ext := x |})
    end.

Definition newline : string := String (Ascii.ascii_of_nat 10) EmptyString.

(** [print] of some objects to [file]: the objects joined by one space,
    then a newline.  Writing to the stream is taken to succeed.  For stderr
    this is how the script sees it: [sys.stderr] replaces what it cannot
    encode instead of raising.  For stdout it is the case of a stream that
    accepts everything; [Console.print] is the general one. *)
Definition print {Ext} (objects : list string) (file : stream) : M Ext unit :=
  log (EvWrite file (String.concat " " objects +:+ newline)).

(** [sys.exit(code)] *)
Definition sys_exit {Ext A} (code : Z) : M Ext A := raise (SystemExit code).

(** [try: body / except Exception as e: handler e]: an exception of another
    class passes through. *)
Definition try_except_Exception {Ext A}
    (body : M Ext A) (handler : exn -> M Ext A) : M Ext A :=
  fun w =>
    match body w with
    | (Normal a, w') => (Normal a, w')
    | (Raise e, w') =>
        if isinstance_Exception e then handler e w' else (Raise e, w')
    end.

(** Runs a statement and hands its outcome to what follows. *)
Definition attempt {Ext A} (m : M Ext A) : M Ext (outcome A) :=
  fun w => match m w with (o, w') => (Normal o, w') end.

Section Script.

Context {Ext : Type}.
Variable Y : YoutubeDL_API Ext.

(** Leaving the [with] block through [__exit__].  After a normal body the
    answer is ignored; after a raising body the exception goes on unless
    [__exit__] answers true. *)
Definition with_exit (mgr : Ydl Y) (o : outcome unit) : M Ext unit :=
  match o with
  | Normal _ =>
      call (EvExit None) (ydl_exit Y mgr None);;
      mret tt
  | Raise e =>
      swallow ← call (EvExit (Some e)) (ydl_exit Y mgr (Some e));
      if (swallow : bool) then mret tt else raise e
  end.

(** [with YoutubeDL(params) as ydl: body]: construct, enter, run the body,
    and leave through [__exit__] whether the body raised or not. *)
Definition with_YoutubeDL
    (params : gmap string pyval) (body : Ydl Y -> M Ext unit) : M Ext unit :=
  mgr ← call (EvInit params) (ydl_init Y params);
  ydl ← call EvEnter (ydl_enter Y mgr);
  o ← attempt (body ydl);
  with_exit mgr o.

(** ** [download_audio] *)

(** The dictionary literal of lines 34-44, then the conditional entry of
    lines 46-48. *)
Definition postprocessor : gmap string pyval :=
  <["key" := PStr "FFmpegExtractAudio"]>
  (<["preferredcodec" := PStr "mp3"]>
  (<["preferredquality" := PStr "192"]> ∅)).

Definition ydl_opts
    (output_dir : string) (ffmpeg_location : option string)
  : gmap string pyval :=
  let opts : gmap string pyval :=
    <["format" := PStr "bestaudio/best"]>
    (<["outtmpl" := PStr (output_dir +:+ "/%(title)s.%(ext)s")]>
    (<["postprocessors" := PList [PDict postprocessor]]>
    (<["quiet" := PBool false]>
    (<["noplaylist" := PBool true]> ∅)))) in
  if truthy ffmpeg_location
  then <["ffmpeg_location" := to_py ffmpeg_location]> opts
  else opts.

(** The three texts the script writes. *)
Definition progress_line (url : string) : string :=
  "Downloading and converting: " +:+ url +:+ newline.

Definition complete_line (output_dir : string) : string :=
  "Download complete! MP3 saved to " +:+ " " +:+ output_dir +:+ newline.

Definition error_line (msg : string) : string :=
  "Error: " +:+ msg +:+ newline.

(** The suite of the [try] statement, lines 51-54. *)
Definition download_audio_try
    (url output_dir : string) (opts : gmap string pyval) : M Ext unit :=
  with_YoutubeDL opts (fun ydl =>
    print ["Downloading and converting: " +:+ url] Stdout;;
    call (EvDownload [url]) (ydl_download Y ydl [url]);;
    print ["Download complete! MP3 saved to "; output_dir] Stdout).

(** The handler of the [except Exception as e] clause, lines 56-57. *)
Definition download_audio_except (e : exn) : M Ext unit :=
  print ["Error: " +:+ str e] Stderr;;
  sys_exit 1.

Definition download_audio
    (url output_dir : string) (ffmpeg_location : option string) : M Ext unit :=
  let opts := ydl_opts output_dir ffmpeg_location in
  try_except_Exception
    (download_audio_try url output_dir opts)
    download_audio_except.

(** ** [main] *)

(** The argument values found on the command line: the positional [url],
    and for each of the two options its value if the option is there.
    argparse itself (the splitting of [sys.argv], its usage errors and
    [-h], which leave the process before [download_audio] is reached) is
    the standard library's and is not modelled. *)
Record cmdline : Type := {
  arg_url : string;
  arg_output : option string;
  arg_ffmpeg_location : option string;
}.

(** The [Namespace] that [parse_args] returns. *)
Record Namespace : Type := {
  url : string;
  output : string;
  ffmpeg_location : option string;
}.

(** [parser.parse_args()] for the three [add_argument] declarations:
    [-o/--output] has [default='.'], [--ffmpeg-location] has
    [default=None]. *)
Definition parse_args (c : cmdline) : Namespace :=
  {| url := arg_url c;
     output := match arg_output c with Some d => d | None => "." end;
     ffmpeg_location :=
       match arg_ffmpeg_location c with Some p => Some p | None => None end |}.

Definition main (c : cmdline) : M Ext unit :=
  let args := parse_args c in
  download_audio (url args) (output args) (ffmpeg_location args).

(** ** The process *)

(** Exit status of the interpreter after [main()]: 0 when it returns,
    the code of a [SystemExit], 1 after the traceback of any other
    exception. *)
Definition exit_status (o : outcome unit) : Z :=
  match o with
  | Normal _ => 0
  | Raise (SystemExit code) => code
  | Raise (Exception _) => 1
  end.

(** One invocation of the script, started with nothing written yet: its
    exit status, what it did, and what it left outside. *)
Record result : Type := {
  status : Z;
  events : list event;
  final : Ext;
}.

Definition run (c : cmdline) (x : Ext) : result :=
  match main c {| trace := []; ext := x |} with
  | (o, w) => {| status := exit_status o; events := trace w; final := ext w |}
  end.

(** What a statement adds to the trace of the world it starts in. *)
Definition emitted {A} (m : M Ext A) (w : world Ext) : list event :=
  drop (length (trace w)) (trace (m w).2).

End Script.

Arguments status {Ext} _.
Arguments events {Ext} _.
Arguments final {Ext} _.

(** ** The runs of [download_audio]

    Every way a call of [download_audio] can go, as the events it adds and
    the outcome it ends with.  The cases follow the four calls into the
    collaborator and what each answers. *)
Inductive behaviour (url output_dir : string) (opts : gmap string pyval)
  : list event -> outcome unit -> Prop :=
| init_raises msg :
    behaviour url output_dir opts
      [EvInit opts; EvWrite Stderr (error_line msg)]
      (Raise (SystemExit 1))
| enter_raises msg :
    behaviour url output_dir opts
      [EvInit opts; EvEnter; EvWrite Stderr (error_line msg)]
      (Raise (SystemExit 1))
| download_raises msg :
    behaviour url output_dir opts
      [EvInit opts; EvEnter; EvWrite Stdout (progress_line url);
       EvDownload [url]; EvExit (Some (Exception msg));
       EvWrite Stderr (error_line msg)]
      (Raise (SystemExit 1))
| download_raises_swallowed msg :
    behaviour url output_dir opts
      [EvInit opts; EvEnter; EvWrite Stdout (progress_line url);
       EvDownload [url]; EvExit (Some (Exception msg))]
      (Normal tt)
| download_raises_exit_raises msg msg' :
    behaviour url output_dir opts
      [EvInit opts; EvEnter; EvWrite Stdout (progress_line url);
       EvDownload [url]; EvExit (Some (Exception msg));
       EvWrite Stderr (error_line msg')]
      (Raise (SystemExit 1))
| download_returns :
    behaviour url output_dir opts
      [EvInit opts; EvEnter; EvWrite Stdout (progress_line url);
       EvDownload [url]; EvWrite Stdout (complete_line output_dir);
       EvExit None]
      (Normal tt)
| download_returns_exit_raises msg :
    behaviour url output_dir opts
      [EvInit opts; EvEnter; EvWrite Stdout (progress_line url);
       EvDownload [url]; EvWrite Stdout (complete_line output_dir);
       EvExit None; EvWrite Stderr (error_line msg)]
      (Raise (SystemExit 1)).

(** ** Standard output that may refuse

    [sys.stdout] as the script uses it: [write], which [print] calls once
    for each object, separator and line end and which raises when the text
    cannot be encoded or the stream cannot be written, and the [flush] of
    the interpreter on its way out. *)
Record Stdout_API (Ext : Type) : Type := {
  stdout_write : string -> Ext -> reply unit * Ext;
  stdout_flush : Ext -> reply unit * Ext;
}.
Arguments stdout_write {Ext} _ _ _.
Arguments stdout_flush {Ext} _ _.

(** A standard output that takes everything. *)
Definition accepting {Ext : Type} : Stdout_API Ext := {|
  stdout_write := fun _ x => (Returns tt, x);
  stdout_flush := fun x => (Returns tt, x);
|}.

Module Console.

Section Console.

Context {Ext : Type}.
Variable O : Stdout_API Ext.
Variable Y : YoutubeDL_API Ext.

(** What [print] hands to [write], in order: the objects with one space
    between them, then the newline. *)
Fixpoint pieces (objects : list string) : list string :=
  match objects with
  | [] => [newline]
  | o :: rest =>
      match rest with
      | [] => [o; newline]
      | _ :: _ => o :: " " :: pieces rest
      end
  end.

(** The writes of one [print], stopping at the first that raises; [done]
    is the text written so far. *)
Fixpoint write_all (ps : list string) (done : string) (x : Ext)
  : reply unit * string * Ext :=
  match ps with
  | [] => (Returns tt, done, x)
  | p :: ps' =>
      match stdout_write O p x with
      | (Returns _, x') => write_all ps' (done +:+ p) x'
      | (Raises msg, x') => (Raises msg, done, x')
      end
  end.

(** One [print] as the stream sees it: how it ended, the text that was
    written, and the world after it. *)
Definition stdout_print (objects : list string) (x : Ext)
  : reply unit * string * Ext :=
  write_all (pieces objects) EmptyString x.

(** [print] of some objects to stdout.  The text written is recorded as one
    event; a [print] that raises has written the pieces before the one
    that failed, and is recorded with those if there are any. *)
Definition print (objects : list string) : M Ext unit :=
  fun w =>
    match stdout_print objects (ext w) with
    | (Returns _, text, x) =>
        (Normal tt,
         {| trace := trace w ++ [EvWrite Stdout text]; ext := x |})
    | (Raises msg, text, x) =>
        (Raise (Exception msg),
         {| trace := if str_truthy text
                     then trace w ++ [EvWrite Stdout text]
                     else trace w;
            ext := x |})
    end.

(** The suite of the [try] statement, lines 51-54. *)
Definition download_audio_try
    (url output_dir : string) (opts : gmap string pyval) : M Ext unit :=
  with_YoutubeDL Y opts (fun ydl =>
    print ["Downloading and converting: " +:+ url];;
    call (EvDownload [url]) (ydl_download Y ydl [url]);;
    print ["Download complete! MP3 saved to "; output_dir]).

Definition download_audio
    (url output_dir : string) (ffmpeg_location : option string) : M Ext unit :=
  let opts := ydl_opts output_dir ffmpeg_location in
  try_except_Exception
    (download_audio_try url output_dir opts)
    download_audio_except.

Definition main (c : cmdline) : M Ext unit :=
  let args := parse_args c in
  download_audio (url args) (output args) (ffmpeg_location args).

(** The script run from the start: how [main()] ends, and the world it
    leaves. *)
Definition script (c : cmdline) (x : Ext) : outcome unit * world Ext :=
  main c {| trace := []; ext := x |}.

(** Exit status of the process: the interpreter flushes stdout on its way
    out, and a flush that fails makes the status 120 whatever [main()]
    did. *)
Definition exit_code (c : cmdline) (x : Ext) : Z :=
  match script c x with
  | (o, w) =>
      match stdout_flush O (ext w) with
      | (Returns _, _) => exit_status o
      | (Raises _, _) => 120
      end
  end.

End Console.

End Console.

(** ** A small stand-in for yt-dlp

    Used to run the script on concrete inputs.  It keeps the list of files
    it has written; it refuses the empty URL and a video called [gone], and
    for any other URL writes one file named after the output template. *)
Module Standin.

Definition files : Type := list string.

Definition template (params : gmap string pyval) : string :=
  match params !! "outtmpl" with
  | Some (PStr t) => t
  | _ => EmptyString
  end.

Definition download_one (params : gmap string pyval) (u : string)
    (fs : files) : reply Z * files :=
  if negb (str_truthy u) then (Raises "ERROR: no URL given", fs)
  else if String.eqb u "gone" then (Raises "ERROR: Video unavailable", fs)
  else (Returns 0, fs ++ [template params +:+ " <- " +:+ u]).

Definition download_all (params : gmap string pyval) (us : list string)
    (fs : files) : reply Z * files :=
  match us with
  | [u] => download_one params u fs
  | _ => (Returns 0, fs)
  end.

Definition api : YoutubeDL_API files := {|
  Ydl := gmap string pyval;
  ydl_init := fun params fs => (Returns params, fs);
  ydl_enter := fun ydl fs => (Returns ydl, fs);
  ydl_download := download_all;
  ydl_exit := fun _ _ fs => (Returns false, fs);
|}.

(** The same, with no network: nothing can even be constructed. *)
Definition offline : YoutubeDL_API files := {|
  Ydl := gmap string pyval;
  ydl_init := fun _ fs => (Raises "ERROR: network is unreachable", fs);
  ydl_enter := fun ydl fs => (Returns ydl, fs);
  ydl_download := download_all;
  ydl_exit := fun _ _ fs => (Returns false, fs);
|}.

(** A downloader whose [__enter__] fails. *)
Definition failing_enter : YoutubeDL_API files := {|
  Ydl := gmap string pyval;
  ydl_init := fun params fs => (Returns params, fs);
  ydl_enter := fun _ fs => (Raises "ERROR: cannot set the console title", fs);
  ydl_download := download_all;
  ydl_exit := fun _ _ fs => (Returns false, fs);
|}.



(** A standard output whose encoding is ASCII: a text with any other
    character is refused. *)
Definition is_ascii (s : string) : bool :=
  forallb (fun a => Nat.ltb (Ascii.nat_of_ascii a) 128%nat)
    (list_ascii_of_string s).

Definition ascii_stdout : Stdout_API files := {|
  stdout_write := fun text fs =>
    if is_ascii text then (Returns tt, fs)
    else (Raises "'ascii' codec can't encode the text", fs);
  stdout_flush := fun fs => (Returns tt, fs);
|}.


(** A directory and a url with a character outside ASCII (e acute). *)
Definition e_acute : string := String (Ascii.ascii_of_nat 233) EmptyString.

Definition cafe_dir : string := "/music/caf" +:+ e_acute.

Definition cafe_url : string := "https://example.com/caf" +:+ e_acute.

Definition video : string := "https://www.youtube.com/watch?v=HGC5E5m17Fg".

(** Three command lines: a plain one, one with the accented directory,
    one with the accented url. *)
Definition plain : cmdline :=
  {| arg_url := video; arg_output := Some "/music";
     arg_ffmpeg_location := None |}.

Definition to_cafe : cmdline :=
  {| arg_url := video; arg_output := Some cafe_dir;
     arg_ffmpeg_location := None |}.

Definition from_cafe : cmdline :=
  {| arg_url := cafe_url; arg_output := None;
     arg_ffmpeg_location := None |}.

Definition start : world files := {| trace := []; ext := [] |}.

End Standin.

(** * Proofs *)

(** ** Symbolic execution of the script *)

Ltac unfold_script :=
  unfold run, main, download_audio, try_except_Exception, download_audio_try,
    download_audio_except, with_YoutubeDL, with_exit, attempt, sys_exit,
    print, log, call, raise, mbind, M_bind, bind, mret, M_ret, ret;
  simpl.

(** Case analysis on the next answer of the collaborator. *)
Ltac answer :=
  match goal with
  | |- context [ydl_init ?api ?p ?st] =>
      destruct (ydl_init api p st) as [[mgr | msg] x1] eqn:Hinit
  | |- context [ydl_enter ?api ?m ?st] =>
      destruct (ydl_enter api m st) as [[ydl | msg] x2] eqn:Henter
  | |- context [ydl_download ?api ?d ?u ?st] =>
      destruct (ydl_download api d u st) as [[code | msg] x3] eqn:Hdownload
  | |- context [ydl_exit ?api ?m ?e ?st] =>
      destruct (ydl_exit api m e st) as [[[|] | msg'] x4] eqn:Hexit
  end; simpl.

Ltac flatten_trace := rewrite <- ?app_assoc; simpl.

(** ** The options dictionary *)

Section Options.

Variables (output_dir : string) (ffmpeg_location : option string).

Lemma ydl_opts_format :
  ydl_opts output_dir ffmpeg_location !! "format"
    = Some (PStr "bestaudio/best").
Proof. unfold ydl_opts. destruct (truthy ffmpeg_location); by simplify_map_eq. Qed.

Lemma ydl_opts_outtmpl :
  ydl_opts output_dir ffmpeg_location !! "outtmpl"
    = Some (PStr (output_dir +:+ "/%(title)s.%(ext)s")).
Proof. unfold ydl_opts. destruct (truthy ffmpeg_location); by simplify_map_eq. Qed.

Lemma ydl_opts_postprocessors :
  ydl_opts output_dir ffmpeg_location !! "postprocessors"
    = Some (PList [PDict postprocessor]).
Proof. unfold ydl_opts. destruct (truthy ffmpeg_location); by simplify_map_eq. Qed.

Lemma ydl_opts_noplaylist :
  ydl_opts output_dir ffmpeg_location !! "noplaylist" = Some (PBool true).
Proof. unfold ydl_opts. destruct (truthy ffmpeg_location); by simplify_map_eq. Qed.

Lemma ydl_opts_ffmpeg_location_truthy :
  truthy ffmpeg_location = true ->
  ydl_opts output_dir ffmpeg_location !! "ffmpeg_location"
    = Some (to_py ffmpeg_location).
Proof. intros H. unfold ydl_opts. rewrite H. by simplify_map_eq. Qed.

Lemma ydl_opts_ffmpeg_location_falsy :
  truthy ffmpeg_location = false ->
  ydl_opts output_dir ffmpeg_location !! "ffmpeg_location" = None.
Proof. intros H. unfold ydl_opts. rewrite H. by simplify_map_eq. Qed.

End Options.

Lemma truthy_nonempty (p : string) :
  p <> EmptyString -> truthy (Some p) = true.
Proof. destruct p; [congruence | reflexivity]. Qed.

Section Runs.

Context {Ext : Type}.
Variable Y : YoutubeDL_API Ext.

Lemma download_audio_behaviour url output_dir ffmpeg_location (w : world Ext) :
  exists new,
    trace (download_audio Y url output_dir ffmpeg_location w).2
      = trace w ++ new
    /\ behaviour url output_dir (ydl_opts output_dir ffmpeg_location) new
         (download_audio Y url output_dir ffmpeg_location w).1.
Proof.
  unfold_script.
  repeat answer;
    (eexists; split; [flatten_trace; reflexivity | constructor]).
Qed.

Lemma download_audio_emits url output_dir ffmpeg_location (w : world Ext) :
  trace (download_audio Y url output_dir ffmpeg_location w).2
    = trace w ++ emitted (download_audio Y url output_dir ffmpeg_location) w
  /\ behaviour url output_dir (ydl_opts output_dir ffmpeg_location)
       (emitted (download_audio Y url output_dir ffmpeg_location) w)
       (download_audio Y url output_dir ffmpeg_location w).1.
Proof.
  destruct (download_audio_behaviour url output_dir ffmpeg_location w)
    as (new & Ht & Hb).
  unfold emitted. rewrite Ht, drop_app_length. auto.
Qed.

(** A run of the script is a run of [download_audio] on the parsed
    arguments, from an empty trace. *)
Lemma run_behaviour (c : cmdline) (x : Ext) :
  exists o,
    behaviour (arg_url c) (output (parse_args c))
      (ydl_opts (output (parse_args c)) (ffmpeg_location (parse_args c)))
      (events (run Y c x)) o
    /\ status (run Y c x) = exit_status o.
Proof.
  destruct (download_audio_behaviour (arg_url c) (output (parse_args c))
              (ffmpeg_location (parse_args c)) {| trace := []; ext := x |})
    as (new & Ht & Hb).
  unfold run, main. simpl in *.
  destruct (download_audio _ _ _ _ _) as [o w']. simpl in *.
  exists o. subst. auto.
Qed.

Lemma behaviour_passed_options url output_dir opts t o :
  behaviour url output_dir opts t o -> passed_options t = [opts].
Proof. destruct 1; reflexivity. Qed.

Lemma behaviour_downloads url output_dir opts t o :
  behaviour url output_dir opts t o ->
  downloads t = [] \/ downloads t = [[url]].
Proof. destruct 1; simpl; auto. Qed.

Lemma behaviour_calls url output_dir opts t o :
  behaviour url output_dir opts t o ->
  calls t = [EvInit opts]
  \/ calls t = [EvInit opts; EvEnter]
  \/ exists exc, calls t = [EvInit opts; EvEnter; EvDownload [url]; EvExit exc].
Proof. destruct 1; simpl; eauto. Qed.


(** The success path in full: when each of the four calls returns, the
    script announces the download, delegates it, reports completion with
    the directory, leaves the [with] block and returns. *)
Lemma download_audio_success url output_dir ffmpeg_location (w : world Ext)
    mgr x1 ydl x2 code x3 b x4 :
  ydl_init Y (ydl_opts output_dir ffmpeg_location) (ext w) = (Returns mgr, x1) ->
  ydl_enter Y mgr x1 = (Returns ydl, x2) ->
  ydl_download Y ydl [url] x2 = (Returns code, x3) ->
  ydl_exit Y mgr None x3 = (Returns b, x4) ->
  download_audio Y url output_dir ffmpeg_location w
    = (Normal tt,
       {| trace := trace w ++
            [EvInit (ydl_opts output_dir ffmpeg_location); EvEnter;
             EvWrite Stdout (progress_line url);
             EvDownload [url];
             EvWrite Stdout (complete_line output_dir);
             EvExit None];
          ext := x4 |}).
Proof.
  intros Hinit Henter Hdownload Hexit. unfold_script.
  rewrite Hinit; simpl. rewrite Henter; simpl. rewrite Hdownload; simpl.
  rewrite Hexit; simpl. flatten_trace. reflexivity.
Qed.

(** How the [try] suite comes to raise: the construction fails, entering
    fails, or the download fails and [__exit__] lets the exception go on
    (it answers false, as [YoutubeDL.__exit__] does). *)
Lemma download_audio_try_raises url output_dir opts (w : world Ext) :
  (forall msg x1,
     ydl_init Y opts (ext w) = (Raises msg, x1) ->
     (download_audio_try Y url output_dir opts w).1 = Raise (Exception msg))
  /\ (forall mgr x1 msg x2,
        ydl_init Y opts (ext w) = (Returns mgr, x1) ->
        ydl_enter Y mgr x1 = (Raises msg, x2) ->
        (download_audio_try Y url output_dir opts w).1 = Raise (Exception msg))
  /\ (forall mgr x1 ydl x2 msg x3 x4,
        ydl_init Y opts (ext w) = (Returns mgr, x1) ->
        ydl_enter Y mgr x1 = (Returns ydl, x2) ->
        ydl_download Y ydl [url] x2 = (Raises msg, x3) ->
        ydl_exit Y mgr (Some (Exception msg)) x3 = (Returns false, x4) ->
        (download_audio_try Y url output_dir opts w).1 = Raise (Exception msg)).
Proof.
  split; [| split].
  - intros msg x1 Hinit. unfold_script. by rewrite Hinit.
  - intros mgr x1 msg x2 Hinit Henter. unfold_script.
    rewrite Hinit; simpl. by rewrite Henter.
  - intros mgr x1 ydl x2 msg x3 x4 Hinit Henter Hdownload Hexit.
    unfold_script. rewrite Hinit; simpl. rewrite Henter; simpl.
    rewrite Hdownload; simpl. by rewrite Hexit.
Qed.

(** ** The options handed to the downloader *)

(** C1: whatever the url, the output directory and the ffmpeg location,
    and whatever the collaborator answers, [download_audio] constructs the
    downloader exactly once, with the dictionary it built; that dictionary
    asks for the best audio format, names the output after the directory
    and the video title, holds a list of exactly one post-processor, the
    audio extraction to mp3 at quality 192, and turns playlists off. *)
Theorem download_audio_options url output_dir ffmpeg_location (w : world Ext) :
  passed_options (emitted (download_audio Y url output_dir ffmpeg_location) w)
    = [ydl_opts output_dir ffmpeg_location]
  /\ ydl_opts output_dir ffmpeg_location !! "format"
       = Some (PStr "bestaudio/best")
  /\ ydl_opts output_dir ffmpeg_location !! "outtmpl"
       = Some (PStr (output_dir +:+ "/%(title)s.%(ext)s"))
  /\ (exists step,
        ydl_opts output_dir ffmpeg_location !! "postprocessors"
          = Some (PList [PDict step])
        /\ step !! "key" = Some (PStr "FFmpegExtractAudio")
        /\ step !! "preferredcodec" = Some (PStr "mp3")
        /\ step !! "preferredquality" = Some (PStr "192"))
  /\ ydl_opts output_dir ffmpeg_location !! "noplaylist" = Some (PBool true).
Proof.
  destruct (download_audio_emits url output_dir ffmpeg_location w) as [_ Hb].
  split; [exact (behaviour_passed_options _ _ _ _ _ Hb) |].
  split; [apply ydl_opts_format |].
  split; [apply ydl_opts_outtmpl |].
  split; [| apply ydl_opts_noplaylist].
  exists postprocessor. split; [apply ydl_opts_postprocessors |].
  unfold postprocessor. by simplify_map_eq.
Qed.

(** ** Failures of the downloader *)


Lemma run_passed_options (c : cmdline) (x : Ext) :
  passed_options (events (run Y c x))
    = [ydl_opts (output (parse_args c)) (ffmpeg_location (parse_args c))].
Proof.
  destruct (run_behaviour c x) as (o & Hb & _).
  exact (behaviour_passed_options _ _ _ _ _ Hb).
Qed.

(** ** Command-line arguments *)

(** C4, as the code has it: the downloader is constructed once, and its
    options carry the value of [--ffmpeg-location] under the key
    [ffmpeg_location] when the option is given with a non-empty value; the
    key is absent when the option is omitted or given as the empty
    string. *)
Theorem ffmpeg_location_routed (c : cmdline) (x : Ext) :
  exists opts,
    passed_options (events (run Y c x)) = [opts]
    /\ (forall p,
          arg_ffmpeg_location c = Some p -> p <> EmptyString ->
          opts !! "ffmpeg_location" = Some (PStr p))
    /\ (arg_ffmpeg_location c = None
          \/ arg_ffmpeg_location c = Some EmptyString ->
        opts !! "ffmpeg_location" = None).
Proof.
  eexists. split; [apply run_passed_options |]. split.
  - intros p Hp Hne.
    rewrite ydl_opts_ffmpeg_location_truthy; simpl; rewrite Hp.
    + reflexivity.
    + by apply truthy_nonempty.
  - intros [H | H]; apply ydl_opts_ffmpeg_location_falsy;
      simpl; rewrite H; reflexivity.
Qed.

(** C5: without [-o]/[--output] the directory handed to [download_audio]
    is [.], and the options the downloader is constructed with have the
    filename template [./%(title)s.%(ext)s]. *)
Theorem output_defaults_to_cwd (c : cmdline) (x : Ext) :
  arg_output c = None ->
  output (parse_args c) = "."
  /\ exists opts,
       passed_options (events (run Y c x)) = [opts]
       /\ opts !! "outtmpl" = Some (PStr "./%(title)s.%(ext)s").
Proof.
  intros Ho.
  assert (Hdir : output (parse_args c) = ".") by (simpl; by rewrite Ho).
  split; [exact Hdir |].
  eexists. split; [apply run_passed_options |].
  rewrite ydl_opts_outtmpl, Hdir. reflexivity.
Qed.

(** ** No retries, no cleanup *)

(** C8: in every run [download] is called at most once, and the calls
    into the collaborator are those of one [with] statement around one
    [download], cut short where one fails: nothing is called a second time
    and nothing is called to clean up.  When [download] fails, the script
    goes on with nothing but leaving the [with] block (the [__exit__] every
    [with] ends with) and, unless that swallows the exception, one line on
    stderr. *)
Theorem download_at_most_once (c : cmdline) (x : Ext) :
  (length (downloads (events (run Y c x))) <= 1)%nat
  /\ (let opts := ydl_opts (output (parse_args c))
                           (ffmpeg_location (parse_args c)) in
      calls (events (run Y c x)) = [EvInit opts]
      \/ calls (events (run Y c x)) = [EvInit opts; EvEnter]
      \/ exists exc,
           calls (events (run Y c x))
             = [EvInit opts; EvEnter; EvDownload [arg_url c]; EvExit exc])
  /\ (forall mgr x1 ydl x2 msg x3,
        ydl_init Y (ydl_opts (output (parse_args c))
                             (ffmpeg_location (parse_args c))) x
          = (Returns mgr, x1) ->
        ydl_enter Y mgr x1 = (Returns ydl, x2) ->
        ydl_download Y ydl [arg_url c] x2 = (Raises msg, x3) ->
        exists tail,
          events (run Y c x)
            = [EvInit (ydl_opts (output (parse_args c))
                                (ffmpeg_location (parse_args c)));
               EvEnter;
               EvWrite Stdout (progress_line (arg_url c));
               EvDownload [arg_url c];
               EvExit (Some (Exception msg))] ++ tail
          /\ (tail = [] \/ exists m, tail = [EvWrite Stderr (error_line m)])).
Proof.
  split; [| split].
  - destruct (run_behaviour c x) as (o & Hb & _).
    destruct (behaviour_downloads _ _ _ _ _ Hb) as [-> | ->]; simpl; lia.
  - destruct (run_behaviour c x) as (o & Hb & _).
    exact (behaviour_calls _ _ _ _ _ Hb).
  - intros mgr x1 ydl x2 msg x3 Hinit Henter Hdownload.
    unfold_script. simpl in Hinit.
    rewrite Hinit; simpl. rewrite Henter; simpl. rewrite Hdownload; simpl.
    answer; eexists; (split; [reflexivity | eauto]).
Qed.

(** ** The empty ffmpeg location *)

(** C9: an ffmpeg location given as the empty string is treated as [None]:
    the options built are the same, they have no key [ffmpeg_location],
    and they are what the downloader is constructed with. *)
Theorem empty_ffmpeg_location_omitted url output_dir (w : world Ext) :
  truthy (Some EmptyString) = truthy None
  /\ ydl_opts output_dir (Some EmptyString) = ydl_opts output_dir None
  /\ ydl_opts output_dir (Some EmptyString) !! "ffmpeg_location" = None
  /\ exists opts,
       passed_options
         (emitted (download_audio Y url output_dir (Some EmptyString)) w)
         = [opts]
       /\ opts !! "ffmpeg_location" = None.
Proof.
  split; [reflexivity |]. split; [reflexivity |].
  split; [by apply ydl_opts_ffmpeg_location_falsy |].
  eexists. split.
  - destruct (download_audio_emits url output_dir (Some EmptyString) w)
      as [_ Hb].
    exact (behaviour_passed_options _ _ _ _ _ Hb).
  - by apply ydl_opts_ffmpeg_location_falsy.
Qed.

End Runs.

(** ** Determinism of the options *)

(** C10: two calls of [download_audio] with equal url, output directory
    and ffmpeg location construct the downloader with the same options,
    whatever the two collaborators are and answer and whatever worlds the
    calls start in. *)
Theorem option_assembly_deterministic {Ext1 Ext2 : Type}
    (Y1 : YoutubeDL_API Ext1) (Y2 : YoutubeDL_API Ext2)
    (w1 : world Ext1) (w2 : world Ext2)
    (url1 url2 output_dir1 output_dir2 : string)
    (ffmpeg_location1 ffmpeg_location2 : option string) :
  (url1, output_dir1, ffmpeg_location1)
    = (url2, output_dir2, ffmpeg_location2) ->
  passed_options
    (emitted (download_audio Y1 url1 output_dir1 ffmpeg_location1) w1)
  = passed_options
      (emitted (download_audio Y2 url2 output_dir2 ffmpeg_location2) w2).
Proof.
  intros Heq. injection Heq as -> -> ->.
  destruct (download_audio_emits Y1 url2 output_dir2 ffmpeg_location2 w1)
    as [_ Hb1].
  destruct (download_audio_emits Y2 url2 output_dir2 ffmpeg_location2 w2)
    as [_ Hb2].
  rewrite (behaviour_passed_options _ _ _ _ _ Hb1).
  rewrite (behaviour_passed_options _ _ _ _ _ Hb2).
  reflexivity.
Qed.

(** ** The theorems at work on the stand-in *)


(** [--ffmpeg-location /usr/bin] reaches the downloader. *)
Lemma ffmpeg_location_routed_witness :
  exists opts,
    passed_options
      (events (run Standin.api
                 {| arg_url := Standin.video;
                    arg_output := None;
                    arg_ffmpeg_location := Some "/usr/bin" |} [])) = [opts]
    /\ opts !! "ffmpeg_location" = Some (PStr "/usr/bin").
Proof.
  destruct (ffmpeg_location_routed Standin.api
              {| arg_url := Standin.video;
                 arg_output := None;
                 arg_ffmpeg_location := Some "/usr/bin" |} [])
    as (opts & Hpassed & Hgiven & _).
  exists opts. split; [exact Hpassed |].
  apply Hgiven; [reflexivity | discriminate].
Defined.

(** [--ffmpeg-location] with an empty value does not: the key is absent,
    although the option was given. *)
Lemma ffmpeg_location_empty_not_routed :
  exists opts,
    passed_options
      (events (run Standin.api
                 {| arg_url := Standin.video;
                    arg_output := None;
                    arg_ffmpeg_location := Some EmptyString |} [])) = [opts]
    /\ opts !! "ffmpeg_location" = None
    /\ opts !! "ffmpeg_location" <> Some (PStr EmptyString).
Proof.
  exists (ydl_opts "." None).
  split; [apply (run_passed_options Standin.api) |].
  assert (H : ydl_opts "." None !! "ffmpeg_location" = None)
    by (by apply ydl_opts_ffmpeg_location_falsy).
  split; [exact H | rewrite H; discriminate].
Qed.

(** No [-o] on the command line. *)
Lemma output_defaults_to_cwd_witness :
  output (parse_args {| arg_url := Standin.video;
                        arg_output := None;
                        arg_ffmpeg_location := None |}) = "."
  /\ exists opts,
       passed_options
         (events (run Standin.api
                    {| arg_url := Standin.video;
                       arg_output := None;
                       arg_ffmpeg_location := None |} [])) = [opts]
       /\ opts !! "outtmpl" = Some (PStr "./%(title)s.%(ext)s").
Proof.
  apply (output_defaults_to_cwd Standin.api). reflexivity.
Defined.

(** After a failed download: [__exit__], the error line, and the end. *)
Lemma download_at_most_once_witness :
  exists tail,
    events (run Standin.api
              {| arg_url := "gone";
                 arg_output := None;
                 arg_ffmpeg_location := None |} [])
      = [EvInit (ydl_opts "." None); EvEnter;
         EvWrite Stdout (progress_line "gone");
         EvDownload ["gone"];
         EvExit (Some (Exception "ERROR: Video unavailable"))] ++ tail
    /\ (tail = [] \/ exists m, tail = [EvWrite Stderr (error_line m)]).
Proof.
  eapply (proj2 (proj2 (download_at_most_once Standin.api
            {| arg_url := "gone";
               arg_output := None;
               arg_ffmpeg_location := None |} [])));
    reflexivity.
Defined.

(** The same request to a working and to an unreachable downloader. *)
Lemma option_assembly_deterministic_witness :
  passed_options
    (emitted (download_audio Standin.api Standin.video "/music" None)
       Standin.start)
  = passed_options
      (emitted (download_audio Standin.offline Standin.video "/music" None)
         {| trace := [EvWrite Stdout "earlier output"]; ext := ["a.mp3"] |}).
Proof.
  apply option_assembly_deterministic. reflexivity.
Defined.

(** * More about the script *)

(** ** The shape of the options *)

Lemma length_append (s t : string) :
  String.length (s +:+ t) = (String.length s + String.length t)%nat.
Proof.
  induction s as [| a s IH]; [reflexivity |].
  change (S (String.length (s +:+ t))
          = S (String.length s + String.length t)).
  by rewrite IH.
Qed.

(** Appending the same text to two strings keeps them apart. *)
Lemma append_inv_tail (s1 s2 t : string) :
  s1 +:+ t = s2 +:+ t -> s1 = s2.
Proof.
  revert s2. induction s1 as [| a s1 IH]; intros [| b s2] Heq.
  - reflexivity.
  - apply (f_equal String.length) in Heq.
    rewrite !length_append in Heq. simpl in Heq. lia.
  - apply (f_equal String.length) in Heq.
    rewrite !length_append in Heq. simpl in Heq. lia.
  - change (String a (s1 +:+ t) = String b (s2 +:+ t)) in Heq.
    injection Heq as -> Heq. f_equal. by apply IH.
Qed.

Section Shape.

Context {Ext : Type}.
Variable Y : YoutubeDL_API Ext.

(** X1: the dictionary the downloader is constructed with has the five keys
    of the literal and, for a non-empty ffmpeg location only, the key
    [ffmpeg_location]; no other option of yt-dlp is ever set.  [quiet] is
    false, and the post-processor has its three keys and no other. *)
Theorem ydl_opts_keys url output_dir ffmpeg_location (w : world Ext) :
  passed_options (emitted (download_audio Y url output_dir ffmpeg_location) w)
    = [ydl_opts output_dir ffmpeg_location]
  /\ dom (ydl_opts output_dir ffmpeg_location)
     = ({["format"; "outtmpl"; "postprocessors"; "quiet"; "noplaylist"]}
        ∪ (if truthy ffmpeg_location then {["ffmpeg_location"]} else ∅)
        : gset string)
  /\ ydl_opts output_dir ffmpeg_location !! "quiet" = Some (PBool false)
  /\ dom postprocessor
     = ({["key"; "preferredcodec"; "preferredquality"]} : gset string).
Proof.
  split.
  { destruct (download_audio_emits Y url output_dir ffmpeg_location w)
      as [_ Hb].
    exact (behaviour_passed_options _ _ _ _ _ Hb). }
  unfold ydl_opts, postprocessor.
  destruct (truthy ffmpeg_location);
    (split; [rewrite !dom_insert_L, dom_empty_L; set_solver |]);
    (split; [by simplify_map_eq |]);
    rewrite !dom_insert_L, dom_empty_L; set_solver.
Qed.

End Shape.

(** X10: the options are a faithful image of the request: two calls build
    the same dictionary only for the same output directory and the same
    ffmpeg location, an empty location counting as none. *)
Theorem ydl_opts_inj (output_dir1 output_dir2 : string)
    (ffmpeg_location1 ffmpeg_location2 : option string) :
  ydl_opts output_dir1 ffmpeg_location1
    = ydl_opts output_dir2 ffmpeg_location2 ->
  output_dir1 = output_dir2
  /\ (if truthy ffmpeg_location1 then ffmpeg_location1 else None)
     = (if truthy ffmpeg_location2 then ffmpeg_location2 else None).
Proof.
  intros Heq. split.
  - apply (f_equal (fun d : gmap string pyval => d !! "outtmpl")) in Heq.
    rewrite !ydl_opts_outtmpl in Heq.
    injection Heq as Heq. by apply append_inv_tail in Heq.
  - apply (f_equal (fun d : gmap string pyval => d !! "ffmpeg_location"))
      in Heq.
    destruct (truthy ffmpeg_location1) eqn:H1,
             (truthy ffmpeg_location2) eqn:H2.
    + rewrite !ydl_opts_ffmpeg_location_truthy in Heq by done.
      destruct ffmpeg_location1, ffmpeg_location2; simpl in *; congruence.
    + rewrite ydl_opts_ffmpeg_location_truthy,
        ydl_opts_ffmpeg_location_falsy in Heq by done.
      discriminate.
    + rewrite ydl_opts_ffmpeg_location_falsy,
        ydl_opts_ffmpeg_location_truthy in Heq by done.
      discriminate.
    + reflexivity.
Qed.

(** ** What the script writes, and when *)

Section Messages.

Context {Ext : Type}.
Variable Y : YoutubeDL_API Ext.

(** X3: after a [download] that raised, the completion line is never
    written, whatever [__exit__] then answers: stdout holds the progress
    line and nothing more. *)
Theorem no_completion_after_failure (c : cmdline) (x : Ext)
    mgr x1 ydl x2 msg x3 :
  ydl_init Y (ydl_opts (output (parse_args c))
                       (ffmpeg_location (parse_args c))) x
    = (Returns mgr, x1) ->
  ydl_enter Y mgr x1 = (Returns ydl, x2) ->
  ydl_download Y ydl [arg_url c] x2 = (Raises msg, x3) ->
  written Stdout (events (run Y c x)) = [progress_line (arg_url c)].
Proof.
  intros Hinit Henter Hdownload.
  unfold_script. simpl in Hinit.
  rewrite Hinit; simpl. rewrite Henter; simpl. rewrite Hdownload; simpl.
  answer; reflexivity.
Qed.

(** X4: the exit status and stderr go together in every run.  With status
    0 nothing was written to stderr; with status 1 exactly one line was,
    an [Error: ] line, and writing it was the last thing the script
    did. *)
Theorem stderr_matches_status (c : cmdline) (x : Ext) :
  (status (run Y c x) = 0 /\ written Stderr (events (run Y c x)) = [])
  \/ (status (run Y c x) = 1
      /\ exists msg,
           written Stderr (events (run Y c x)) = [error_line msg]
           /\ last (events (run Y c x))
              = Some (EvWrite Stderr (error_line msg))).
Proof.
  destruct (run_behaviour Y c x) as (o & Hb & ->).
  destruct Hb; simpl;
    (left; split; reflexivity)
    || (right; split; [reflexivity | eexists; split; reflexivity]).
Qed.




(** X9: a directory given with [-o] is used as it is, the empty string
    included: it is not replaced by the default, nothing is stripped from
    it or added to it but the slash of the template, and for the empty
    string the template starts at the root. *)
Theorem output_used_verbatim (c : cmdline) (x : Ext) (d : string) :
  arg_output c = Some d ->
  output (parse_args c) = d
  /\ exists opts,
       passed_options (events (run Y c x)) = [opts]
       /\ opts !! "outtmpl" = Some (PStr (d +:+ "/%(title)s.%(ext)s")).
Proof.
  intros Ho.
  assert (Hdir : output (parse_args c) = d) by (simpl; by rewrite Ho).
  split; [exact Hdir |].
  eexists. split; [apply run_passed_options |].
  rewrite ydl_opts_outtmpl, Hdir. reflexivity.
Qed.

End Messages.

(** ** These theorems at work on the stand-ins *)

(** A video that is gone: no completion line. *)
Lemma no_completion_after_failure_witness :
  written Stdout
    (events (run Standin.api
               {| arg_url := "gone";
                  arg_output := None;
                  arg_ffmpeg_location := None |} []))
  = [progress_line "gone"].
Proof.
  eapply (no_completion_after_failure Standin.api
            {| arg_url := "gone";
               arg_output := None;
               arg_ffmpeg_location := None |} []);
    reflexivity.
Defined.




(** [-o] with the empty string: the template starts at the root. *)
Lemma output_used_verbatim_witness :
  output (parse_args {| arg_url := Standin.video;
                        arg_output := Some EmptyString;
                        arg_ffmpeg_location := None |}) = EmptyString
  /\ exists opts,
       passed_options
         (events (run Standin.api
                    {| arg_url := Standin.video;
                       arg_output := Some EmptyString;
                       arg_ffmpeg_location := None |} [])) = [opts]
       /\ opts !! "outtmpl" = Some (PStr "/%(title)s.%(ext)s").
Proof.
  apply (output_used_verbatim Standin.api
           {| arg_url := Standin.video;
              arg_output := Some EmptyString;
              arg_ffmpeg_location := None |} [] EmptyString).
  reflexivity.
Defined.

(** An empty ffmpeg location and none give the same options. *)
Lemma ydl_opts_inj_witness :
  "/music" = "/music"
  /\ (if truthy (Some EmptyString) then Some EmptyString else None)
     = (if truthy None then None else None).
Proof.
  apply (ydl_opts_inj "/music" "/music" (Some EmptyString) None).
  reflexivity.
Defined.

(** * The script on a standard output that may refuse *)

Arguments Console.stdout_print : simpl never.

Ltac unfold_console :=
  unfold Console.exit_code, Console.script, Console.main,
    Console.download_audio, Console.download_audio_try, Console.print,
    try_except_Exception, download_audio_except, with_YoutubeDL, with_exit,
    attempt, sys_exit, print, log, call, raise, mbind, M_bind, bind, mret,
    M_ret, ret;
  simpl.

(** Case analysis on the next answer of the collaborator or of stdout. *)
Ltac answer_console :=
  match goal with
  | |- context [ydl_init ?api ?p ?st] =>
      let H := fresh "Hinit" in
      destruct (ydl_init api p st) as [[? | ?] ?] eqn:H
  | |- context [ydl_enter ?api ?m ?st] =>
      let H := fresh "Henter" in
      destruct (ydl_enter api m st) as [[? | ?] ?] eqn:H
  | |- context [Console.stdout_print ?out ?objs ?st] =>
      let H := fresh "Hprint" in
      destruct (Console.stdout_print out objs st) as [[[[] | ?] ?] ?] eqn:H
  | |- context [ydl_download ?api ?d ?u ?st] =>
      let H := fresh "Hdownload" in
      destruct (ydl_download api d u st) as [[? | ?] ?] eqn:H
  | |- context [ydl_exit ?api ?m ?e ?st] =>
      let H := fresh "Hexit" in
      destruct (ydl_exit api m e st) as [[[|] | ?] ?] eqn:H
  | |- context [stdout_flush ?out ?st] =>
      let H := fresh "Hflush" in
      destruct (stdout_flush out st) as [[[] | ?] ?] eqn:H
  end; simpl.

(** Whether a partly written line was recorded. *)
Ltac partial_lines :=
  repeat match goal with
         | |- context [str_truthy ?t] => destruct (str_truthy t)
         end;
  simpl.

Section ConsoleRuns.

Context {Ext : Type}.
Variable O : Stdout_API Ext.
Variable Y : YoutubeDL_API Ext.

Lemma write_all_returns ps done (x : Ext) text x' :
  Console.write_all O ps done x = (Returns tt, text, x') ->
  text = fold_left String.append ps done.
Proof.
  revert done x. induction ps as [| p ps IH]; intros done x H; simpl in *.
  - by injection H as <- _.
  - destruct (stdout_write O p x) as [[[] | msg] x1]; [eauto | discriminate].
Qed.

(** A [print] that returns has written its whole line. *)
Lemma stdout_print_returns objects (x : Ext) text x' :
  Console.stdout_print O objects x = (Returns tt, text, x') ->
  text = fold_left String.append (Console.pieces objects) EmptyString.
Proof. apply write_all_returns. Qed.

End ConsoleRuns.

(** On a standard output that accepts everything the script is the one of
    [Section Script]: same outcome, same trace, same world. *)
Lemma console_accepting_main {Ext : Type} (Y : YoutubeDL_API Ext)
    (c : cmdline) (w : world Ext) :
  Console.main accepting Y c w = main Y c w.
Proof.
  unfold_console. unfold_script. unfold Console.stdout_print. simpl.
  repeat answer; reflexivity.
Qed.

Lemma console_accepting_exit_code {Ext : Type} (Y : YoutubeDL_API Ext)
    (c : cmdline) (x : Ext) :
  Console.exit_code accepting Y c x = status (run Y c x).
Proof.
  unfold Console.exit_code, Console.script, run.
  rewrite console_accepting_main.
  destruct (main Y c _) as [o w]. reflexivity.
Qed.

Section ConsoleClaims.

Context {Ext : Type}.
Variable O : Stdout_API Ext.
Variable Y : YoutubeDL_API Ext.

(** ** Exit status *)


(** ** The url on its way to [download] *)

(** C6, as the code has it: the url is never examined.  Whatever string it
    is, [download] is called with the one-element list holding it as
    given, or not at all.  It is called -- the collaborator's [download]
    is run on that list and what it leaves is what [__exit__] finds --
    whenever the downloader is constructed and entered and the progress
    line, which shows the url, is written to stdout.  When that line
    cannot be written, [download] is not called and the block is left
    with the exception of [print]. *)
Theorem url_reaches_download (c : cmdline) (x : Ext) :
  url (parse_args c) = arg_url c
  /\ (downloads (trace (Console.script O Y c x).2) = []
      \/ downloads (trace (Console.script O Y c x).2) = [[arg_url c]])
  /\ (forall mgr x1 ydl x2 line x3 r x4,
        ydl_init Y (ydl_opts (output (parse_args c))
                             (ffmpeg_location (parse_args c))) x
          = (Returns mgr, x1) ->
        ydl_enter Y mgr x1 = (Returns ydl, x2) ->
        Console.stdout_print O
          ["Downloading and converting: " +:+ arg_url c] x2
          = (Returns tt, line, x3) ->
        ydl_download Y ydl [arg_url c] x3 = (r, x4) ->
        downloads (trace (Console.script O Y c x).2) = [[arg_url c]]
        /\ (exists rest,
              trace (Console.script O Y c x).2
                = [EvInit (ydl_opts (output (parse_args c))
                                    (ffmpeg_location (parse_args c)));
                   EvEnter;
                   EvWrite Stdout (progress_line (arg_url c));
                   EvDownload [arg_url c]] ++ rest)
        /\ ext (Console.script O Y c x).2
           = (match r with
              | Raises m => ydl_exit Y mgr (Some (Exception m)) x4
              | Returns _ =>
                  match Console.stdout_print O
                          ["Download complete! MP3 saved to ";
                           output (parse_args c)] x4 with
                  | (Returns _, _, x5) => ydl_exit Y mgr None x5
                  | (Raises m, _, x5) =>
                      ydl_exit Y mgr (Some (Exception m)) x5
                  end
              end).2)
  /\ (forall mgr x1 ydl x2 msg text x3,
        ydl_init Y (ydl_opts (output (parse_args c))
                             (ffmpeg_location (parse_args c))) x
          = (Returns mgr, x1) ->
        ydl_enter Y mgr x1 = (Returns ydl, x2) ->
        Console.stdout_print O
          ["Downloading and converting: " +:+ arg_url c] x2
          = (Raises msg, text, x3) ->
        downloads (trace (Console.script O Y c x).2) = []
        /\ calls (trace (Console.script O Y c x).2)
           = [EvInit (ydl_opts (output (parse_args c))
                               (ffmpeg_location (parse_args c)));
              EvEnter; EvExit (Some (Exception msg))]
        /\ ext (Console.script O Y c x).2
           = (ydl_exit Y mgr (Some (Exception msg)) x3).2).
Proof.
  split; [reflexivity |]. split; [| split].
  - unfold_console. repeat answer_console; partial_lines; auto.
  - intros mgr x1 ydl x2 line x3 r x4 Hinit Henter Hprint Hdownload.
    pose proof (stdout_print_returns O _ _ _ _ Hprint) as ->.
    unfold_console. simpl in Hinit.
    rewrite Hinit; simpl. rewrite Henter; simpl. rewrite Hprint; simpl.
    rewrite Hdownload; simpl.
    destruct r as [code | m]; simpl; repeat answer_console; partial_lines;
      (split; [reflexivity |]);
      (split; [eexists; reflexivity | reflexivity]).
  - intros mgr x1 ydl x2 msg text x3 Hinit Henter Hprint.
    unfold_console. simpl in Hinit.
    rewrite Hinit; simpl. rewrite Henter; simpl. rewrite Hprint; simpl.
    answer_console; partial_lines; repeat split; reflexivity.
Qed.

End ConsoleClaims.

Section ConsoleMessages.

Context {Ext : Type}.
Variable O : Stdout_API Ext.
Variable Y : YoutubeDL_API Ext.

(** X2: when the four calls into the collaborator return and stdout takes
    both lines, the script does exactly this and returns: construction,
    [__enter__], the progress line with the url, [download] of the url,
    the completion line -- where [print] puts its own space after the one
    the text ends with, followed by the output directory -- and
    [__exit__] with no exception.  Nothing is written to stderr. *)
Theorem success_trace (c : cmdline) (x : Ext)
    mgr x1 ydl x2 line1 x3 code x4 line2 x5 b x6 :
  ydl_init Y (ydl_opts (output (parse_args c))
                       (ffmpeg_location (parse_args c))) x
    = (Returns mgr, x1) ->
  ydl_enter Y mgr x1 = (Returns ydl, x2) ->
  Console.stdout_print O ["Downloading and converting: " +:+ arg_url c] x2
    = (Returns tt, line1, x3) ->
  ydl_download Y ydl [arg_url c] x3 = (Returns code, x4) ->
  Console.stdout_print O
    ["Download complete! MP3 saved to "; output (parse_args c)] x4
    = (Returns tt, line2, x5) ->
  ydl_exit Y mgr None x5 = (Returns b, x6) ->
  Console.script O Y c x
    = (Normal tt,
       {| trace :=
            [EvInit (ydl_opts (output (parse_args c))
                              (ffmpeg_location (parse_args c)));
             EvEnter;
             EvWrite Stdout
               ("Downloading and converting: " +:+ arg_url c +:+ newline);
             EvDownload [arg_url c];
             EvWrite Stdout
               ("Download complete! MP3 saved to  "
                  +:+ output (parse_args c) +:+ newline);
             EvExit None];
          ext := x6 |})
  /\ written Stderr (trace (Console.script O Y c x).2) = [].
Proof.
  intros Hinit Henter Hprint1 Hdownload Hprint2 Hexit.
  pose proof (stdout_print_returns O _ _ _ _ Hprint1) as ->.
  pose proof (stdout_print_returns O _ _ _ _ Hprint2) as ->.
  unfold_console. simpl in Hinit, Hprint2.
  rewrite Hinit; simpl. rewrite Henter; simpl. rewrite Hprint1; simpl.
  rewrite Hdownload; simpl. rewrite Hprint2; simpl. rewrite Hexit; simpl.
  split; reflexivity.
Qed.

(** X6: once the downloader has been entered it is left again, in every
    case: [__exit__] is called exactly once.  It gets no exception when
    both lines were written and [download] returned; otherwise it gets the
    exception of whatever failed first -- the progress [print], before
    which [download] is not even called, [download] itself, or the
    completion [print] after a [download] that returned. *)
Theorem exit_called_once (c : cmdline) (x : Ext) mgr x1 ydl x2 :
  ydl_init Y (ydl_opts (output (parse_args c))
                       (ffmpeg_location (parse_args c))) x
    = (Returns mgr, x1) ->
  ydl_enter Y mgr x1 = (Returns ydl, x2) ->
  let opts := ydl_opts (output (parse_args c))
                       (ffmpeg_location (parse_args c)) in
  let progress := ["Downloading and converting: " +:+ arg_url c] in
  let complete :=
    ["Download complete! MP3 saved to "; output (parse_args c)] in
  (forall msg text x3,
     Console.stdout_print O progress x2 = (Raises msg, text, x3) ->
     calls (trace (Console.script O Y c x).2)
       = [EvInit opts; EvEnter; EvExit (Some (Exception msg))])
  /\ (forall line x3 msg x4,
        Console.stdout_print O progress x2 = (Returns tt, line, x3) ->
        ydl_download Y ydl [arg_url c] x3 = (Raises msg, x4) ->
        calls (trace (Console.script O Y c x).2)
          = [EvInit opts; EvEnter; EvDownload [arg_url c];
             EvExit (Some (Exception msg))])
  /\ (forall line x3 code x4 msg text x5,
        Console.stdout_print O progress x2 = (Returns tt, line, x3) ->
        ydl_download Y ydl [arg_url c] x3 = (Returns code, x4) ->
        Console.stdout_print O complete x4 = (Raises msg, text, x5) ->
        calls (trace (Console.script O Y c x).2)
          = [EvInit opts; EvEnter; EvDownload [arg_url c];
             EvExit (Some (Exception msg))])
  /\ (forall line x3 code x4 line' x5,
        Console.stdout_print O progress x2 = (Returns tt, line, x3) ->
        ydl_download Y ydl [arg_url c] x3 = (Returns code, x4) ->
        Console.stdout_print O complete x4 = (Returns tt, line', x5) ->
        calls (trace (Console.script O Y c x).2)
          = [EvInit opts; EvEnter; EvDownload [arg_url c]; EvExit None]).
Proof.
  intros Hinit Henter opts progress complete. subst opts progress complete.
  simpl in Hinit.
  split; [| split; [| split]].
  - intros msg text x3 Hprint1.
    unfold_console. rewrite Hinit; simpl. rewrite Henter; simpl.
    rewrite Hprint1; simpl.
    answer_console; partial_lines; reflexivity.
  - intros line x3 msg x4 Hprint1 Hdownload.
    unfold_console. rewrite Hinit; simpl. rewrite Henter; simpl.
    rewrite Hprint1; simpl. rewrite Hdownload; simpl.
    answer_console; reflexivity.
  - intros line x3 code x4 msg text x5 Hprint1 Hdownload Hprint2.
    unfold_console. simpl in Hprint2.
    rewrite Hinit; simpl. rewrite Henter; simpl.
    rewrite Hprint1; simpl. rewrite Hdownload; simpl. rewrite Hprint2; simpl.
    answer_console; partial_lines; reflexivity.
  - intros line x3 code x4 line' x5 Hprint1 Hdownload Hprint2.
    unfold_console. simpl in Hprint2.
    rewrite Hinit; simpl. rewrite Henter; simpl.
    rewrite Hprint1; simpl. rewrite Hdownload; simpl. rewrite Hprint2; simpl.
    answer_console; reflexivity.
Qed.

End ConsoleMessages.

(** ** These theorems at work on the stand-ins *)



(** The empty url is handed to [download] like any other. *)
Lemma url_reaches_download_witness :
  downloads
    (trace (Console.script Standin.ascii_stdout Standin.api
              {| arg_url := EmptyString; arg_output := None;
                 arg_ffmpeg_location := None |} []).2) = [[EmptyString]]
  /\ (exists rest,
        trace (Console.script Standin.ascii_stdout Standin.api
                 {| arg_url := EmptyString; arg_output := None;
                    arg_ffmpeg_location := None |} []).2
          = [EvInit (ydl_opts "." None); EvEnter;
             EvWrite Stdout (progress_line EmptyString);
             EvDownload [EmptyString]] ++ rest)
  /\ ext (Console.script Standin.ascii_stdout Standin.api
            {| arg_url := EmptyString; arg_output := None;
               arg_ffmpeg_location := None |} []).2 = [].
Proof.
  apply (proj1 (proj2 (proj2 (url_reaches_download Standin.ascii_stdout
           Standin.api
           {| arg_url := EmptyString; arg_output := None;
              arg_ffmpeg_location := None |} [])))
           (ydl_opts "." None) [] (ydl_opts "." None) []
           (progress_line EmptyString) []
           (Raises "ERROR: no URL given") []);
    reflexivity.
Defined.

(** A url the ASCII stdout cannot show: the downloader is constructed and
    entered, and [download] is never called with it. *)
Lemma unprintable_url_not_downloaded :
  ydl_init Standin.api (ydl_opts "." None) []
    = (Returns (ydl_opts "." None), [])
  /\ ydl_enter Standin.api (ydl_opts "." None) []
     = (Returns (ydl_opts "." None), [])
  /\ downloads
       (trace (Console.script Standin.ascii_stdout Standin.api
                 Standin.from_cafe []).2) = []
  /\ downloads
       (trace (Console.script Standin.ascii_stdout Standin.api
                 Standin.from_cafe []).2) <> [[Standin.cafe_url]]
  /\ ext (Console.script Standin.ascii_stdout Standin.api
            Standin.from_cafe []).2 = [].
Proof.
  split; [reflexivity |]. split; [reflexivity |].
  assert (H : downloads
                (trace (Console.script Standin.ascii_stdout Standin.api
                          Standin.from_cafe []).2) = [])
    by (vm_compute; reflexivity).
  split; [exact H |]. split; [rewrite H; discriminate |].
  vm_compute. reflexivity.
Qed.

(** A download that goes through, into [/music]. *)
Lemma success_trace_witness :
  Console.script Standin.ascii_stdout Standin.api Standin.plain []
    = (Normal tt,
       {| trace :=
            [EvInit (ydl_opts "/music" None);
             EvEnter;
             EvWrite Stdout
               ("Downloading and converting: " +:+ Standin.video +:+ newline);
             EvDownload [Standin.video];
             EvWrite Stdout
               ("Download complete! MP3 saved to  " +:+ "/music" +:+ newline);
             EvExit None];
          ext := ["/music/%(title)s.%(ext)s <- " +:+ Standin.video] |})
  /\ written Stderr
       (trace (Console.script Standin.ascii_stdout Standin.api
                 Standin.plain []).2) = [].
Proof.
  eapply (success_trace Standin.ascii_stdout Standin.api Standin.plain []);
    reflexivity.
Defined.

(** The accented directory again: [__exit__] gets the exception of the
    completion [print], after the one call of [download]. *)
Lemma exit_called_once_witness :
  calls (trace (Console.script Standin.ascii_stdout Standin.api
                  Standin.to_cafe []).2)
  = [EvInit (ydl_opts Standin.cafe_dir None); EvEnter;
     EvDownload [Standin.video];
     EvExit (Some (Exception "'ascii' codec can't encode the text"))].
Proof.
  eapply (proj1 (proj2 (proj2 (exit_called_once Standin.ascii_stdout
            Standin.api Standin.to_cafe []
            (ydl_opts Standin.cafe_dir None) []
            (ydl_opts Standin.cafe_dir None) []
            eq_refl eq_refl))));
    reflexivity.
Defined.
